(** * mongoengine/reconnect_proxy.py: the reconnecting proxy and its retry loop

    A shallow embedding of [src/mongoengine/reconnect_proxy.py] (Python 3
    semantics: the classes are new-style and [__bool__] is the truth hook).

    The wrapped pymongo objects are opaque: they are reached through the
    interface [Client] only.  Python code with effects is written in the
    monad [M], which threads a [World] (the state of the client library, the
    trace of observable events and the allocator of object identities) and
    carries raised exceptions. *)

From Stdlib Require Import ZArith String List Lia.
From stdpp Require Import base strings gmap pretty list.

Open Scope Z_scope.

(** ** Exceptions and results *)

(** An exception instance: the names of its class and of the bases of that
    class (its method resolution order), and its message. *)
Record PyExc := { exc_mro : list string; exc_msg : string }.

(** [isinstance(e, cls)], the test an [except cls:] clause performs: it also
    accepts the subclasses of [cls]. *)
Definition isinstance (e : PyExc) (cls : string) : bool :=
  bool_decide (cls ∈ exc_mro e).

(** [pymongo.errors.AutoReconnect] *)
Definition AutoReconnect : string := "pymongo.errors.AutoReconnect".

Definition NameError (name : string) : PyExc :=
  {| exc_mro := ["NameError"; "Exception"; "BaseException"; "object"];
     exc_msg := "name '" +:+ name +:+ "' is not defined" |}.

Definition AttributeError (cls name : string) : PyExc :=
  {| exc_mro := ["AttributeError"; "Exception"; "BaseException"; "object"];
     exc_msg := "'" +:+ cls +:+ "' object has no attribute '" +:+ name +:+ "'" |}.

Definition TypeError (msg : string) : PyExc :=
  {| exc_mro := ["TypeError"; "Exception"; "BaseException"; "object"];
     exc_msg := msg |}.

(** The outcome of a Python call: a returned value or a raised exception. *)
Inductive Res (A : Type) : Type :=
| Return (a : A)
| Raise (e : PyExc).
Arguments Return {A} a.
Arguments Raise {A} e.

(** The outcome is an [AutoReconnect] error (or one of a subclass). *)
Definition transient {A} (r : Res A) : bool :=
  match r with
  | Return _ => false
  | Raise e => isinstance e AutoReconnect
  end.

(** ** The wrapped client library *)

(** What the module consumes from pymongo.  [St] is the state of the client
    library and of the server behind it; every operation on a client object
    may change it and may raise. *)
Class Client := {
  St : Type;
  Obj : Type;
  Args : Type;
  Key : Type;
  (** [getattr(o, name)] *)
  py_getattr : Obj → string → St → Res Obj * St;
  (** [o[key]] *)
  py_getitem : Obj → Key → St → Res Obj * St;
  (** [o(args)], with the positional and keyword arguments *)
  py_invoke : Obj → Args → St → Res Obj * St;
  (** [hasattr(o, '__call__')] *)
  py_callable : Obj → bool;
  (** [bool(o)] *)
  py_bool : Obj → St → Res bool * St;
  (** [dir(o)] *)
  py_dir : Obj → St → Res (list string) * St;
  (** [o.__str__()] *)
  py_str : Obj → St → Res string * St;
  (** [o.__repr__()] *)
  py_repr : Obj → St → Res string * St;
  (** The namespaces of [pymongo.collection.Collection], of
      [pymongo.Connection] and of the module [pymongo]: [dir] lists the keys
      and [getattr] reads them. *)
  pymongo_collection_Collection : gmap string Obj;
  pymongo_Connection : gmap string Obj;
  pymongo : gmap string Obj;
}.

(** ** Observable events and the world *)

Inductive Event :=
| EvInvoke                  (** a client object was invoked *)
| EvWarning (msg : string)  (** [logger.warning(msg)] *)
| EvSleep (secs : Z).       (** [time.sleep(secs)] *)

Record World `{Client} := {
  client : St;
  trace : list Event;
  next_id : nat;
}.

Definition M `{Client} (A : Type) : Type := World → Res A * World.

#[export] Instance M_ret `{Client} : MRet M := λ A a w, (Return a, w).

#[export] Instance M_bind `{Client} : MBind M := λ A B k m w,
  match m w with
  | (Return a, w') => k a w'
  | (Raise e, w') => (Raise e, w')
  end.

Definition raise `{Client} {A} (e : PyExc) : M A := λ w, (Raise e, w).

(** [try: body  except cls: handler] *)
Definition try_except `{Client} {A} (body : M A) (cls : string) (handler : M A) : M A :=
  λ w, match body w with
       | (Return a, w') => (Return a, w')
       | (Raise e, w') => if isinstance e cls then handler w' else (Raise e, w')
       end.

Definition emit `{Client} (ev : Event) : M unit :=
  λ w, (Return tt, {| client := client w; trace := trace w ++ [ev]; next_id := next_id w |}).

(** Run an operation of the client library; the trace records that it ran. *)
Definition perform `{Client} {A} (op : St → Res A * St) : M A :=
  λ w, let (r, s) := op (client w) in
       (r, {| client := s; trace := trace w ++ [EvInvoke]; next_id := next_id w |}).

(** Read from a client object without invoking it. *)
Definition inspect `{Client} {A} (op : St → Res A * St) : M A :=
  λ w, let (r, s) := op (client w) in
       (r, {| client := s; trace := trace w; next_id := next_id w |}).

Definition logger_warning `{Client} (msg : string) : M unit := emit (EvWarning msg).

Definition time_sleep `{Client} (secs : Z) : M unit := emit (EvSleep secs).

(** [range(n)] *)
Definition range (n : nat) : list Z := Z.of_nat <$> seq 0 n.

(** ** Lines 21-36: [safe_mongocall] *)

(** ['AutoReconnecting, try %d' % i] *)
Definition retry_message (i : Z) : string := "AutoReconnecting, try " +:+ pretty i.

(** The [for] loop of lines 27-32 over the remaining values of [i], followed
    by the last call of line 35. *)
Fixpoint retry_loop `{Client} {A} (call : M A) (rng : list Z) : M A :=
  match rng with
  | [] => call
  | i :: rng' =>
      try_except call AutoReconnect
        (logger_warning (retry_message i) ;;
         time_sleep (2 ^ i) ;;
         retry_loop call rng')
  end.

Definition _safe_mongocall `{Client} {A B} (call : B → M A) (args : B) : M A :=
  retry_loop (call args) (range 4).

Definition safe_mongocall `{Client} {A B} (call : B → M A) : B → M A :=
  _safe_mongocall call.

(** ** Lines 8-18: [get_methods] and [EXECUTABLE_MONGO_METHODS] *)

(** [dir(obj)] for an object given by its namespace *)
Definition dir `{Client} (obj : gmap string Obj) : list string := elements (dom obj).

(** [s.startswith(prefix)] *)
Definition startswith (s prefix : string) : bool := String.prefix prefix s.

(** [hasattr(getattr(obj, attr), '__call__')] *)
Definition has_call `{Client} (obj : gmap string Obj) (attr : string) : bool :=
  match obj !! attr with
  | Some v => py_callable v
  | None => false
  end.

Definition get_methods `{Client} (objs : list (gmap string Obj)) : gset string :=
  list_to_set
    (obj ← objs;
     attr ← dir obj;
     if negb (startswith attr "_") && has_call obj attr then [attr] else []).

Definition EXECUTABLE_MONGO_METHODS `{Client} : gset string :=
  get_methods [pymongo_collection_Collection; pymongo_Connection; pymongo].

(** ** Instances of the two classes *)

(** An instance of [Executable]: its identity and the field that [__init__]
    sets. *)
Record Executable `{Client} := { exec_id : nat; method : Obj }.

(** An instance of [ReconnectProxy]. *)
Record ReconnectProxy `{Client} := { proxy_id : nat; conn : Obj }.

Inductive Instance `{Client} :=
| IExecutable (e : Executable)
| IProxy (p : ReconnectProxy).

(** What the methods of the proxy hand to the caller: an object of the client
    library as it is, an instance of one of the two classes, or a member that
    ordinary lookup found on such an instance, bound to it. *)
Inductive Value `{Client} :=
| VRaw (o : Obj)
| VInst (i : Instance)
| VBound (self : Instance) (name : string).

(** A new object identity. *)
Definition new_id `{Client} : M nat :=
  λ w, (Return (next_id w),
        {| client := client w; trace := trace w; next_id := S (next_id w) |}).

Inductive ClassTag := CExecutable | CReconnectProxy.

(** [cls(arg)] for the two classes of the module: allocate, then [__init__]. *)
Definition instantiate `{Client} (cls : ClassTag) (arg : Obj) : M Value :=
  match cls with
  | CExecutable =>
      i ← new_id; mret (VInst (IExecutable {| exec_id := i; method := arg |}))
  | CReconnectProxy =>
      i ← new_id; mret (VInst (IProxy {| proxy_id := i; conn := arg |}))
  end.

(** ** The names bound at module level *)

Inductive Global :=
| GClass (cls : ClassTag)
| GOther.

(** Every name the module binds: its imports, [logger], its functions, the
    operation set and its two classes. *)
Definition module_globals : gmap string Global :=
  list_to_map
    [("time", GOther); ("pymongo", GOther); ("logging", GOther);
     ("logger", GOther); ("get_methods", GOther);
     ("EXECUTABLE_MONGO_METHODS", GOther); ("safe_mongocall", GOther);
     ("Executable", GClass CExecutable);
     ("ReconnectProxy", GClass CReconnectProxy)].

(** Reading a global name inside a function of the module.  The built-in
    namespace, searched after the module's, binds none of the names looked up
    here. *)
Definition load_global `{Client} (name : string) : M Global :=
  match module_globals !! name with
  | Some g => mret g
  | None => raise (NameError name)
  end.

(** Calling a global with one argument.  Of the globals that are not classes
    the module calls none this way. *)
Definition call_global `{Client} (g : Global) (arg : Obj) : M Value :=
  match g with
  | GClass cls => instantiate cls arg
  | GOther => raise (TypeError "object is not callable")
  end.

(** ** Lines 39-59: class [Executable] *)

Module Executable.

(** [__call__], decorated with [safe_mongocall]: the decorated function gets
    [self] with the arguments. *)
Definition __call__ `{Client} (self : Executable) (args : Args) : M Obj :=
  safe_mongocall (λ '(self, args), perform (py_invoke (method self) args)) (self, args).

Definition __dir__ `{Client} (self : Executable) : M (list string) :=
  inspect (py_dir (method self)).

Definition __str__ `{Client} (self : Executable) : M string :=
  inspect (py_str (method self)).

Definition __repr__ `{Client} (self : Executable) : M string :=
  inspect (py_repr (method self)).

End Executable.

(** ** Lines 62-112: class [ReconnectProxy] *)

Module ReconnectProxy.

Definition __getitem__ `{Client} (self : ReconnectProxy) (key : Key) : M Value :=
  item ← inspect (py_getitem (conn self) key);
  if py_callable item then
    cls ← load_global "MongoProxy";
    call_global cls item
  else mret (VRaw item).

Definition __getattr__ `{Client} (self : ReconnectProxy) (key : string) : M Value :=
  attr ← inspect (py_getattr (conn self) key);
  if py_callable attr && bool_decide (key ∈ EXECUTABLE_MONGO_METHODS) then
    cls ← load_global "Executable";
    call_global cls attr
  else mret (VRaw attr).

Definition __call__ `{Client} (self : ReconnectProxy) (args : Args) : M Obj :=
  perform (py_invoke (conn self) args).

Definition __dir__ `{Client} (self : ReconnectProxy) : M (list string) :=
  inspect (py_dir (conn self)).

Definition __str__ `{Client} (self : ReconnectProxy) : M string :=
  inspect (py_str (conn self)).

Definition __repr__ `{Client} (self : ReconnectProxy) : M string :=
  inspect (py_repr (conn self)).

Definition __bool__ `{Client} (self : ReconnectProxy) : M bool :=
  mret true.

End ReconnectProxy.

(** ** Python's handling of instances of the two classes *)

(** The names a class body binds (the docstring binds [__doc__]). *)
Definition class_body (cls : ClassTag) : list string :=
  match cls with
  | CExecutable =>
      ["__doc__"; "__init__"; "__call__"; "__dir__"; "__str__"; "__repr__"]
  | CReconnectProxy =>
      ["__doc__"; "__init__"; "__getitem__"; "__getattr__"; "__call__";
       "__dir__"; "__str__"; "__repr__"; "__bool__"]
  end.

Definition class_name (cls : ClassTag) : string :=
  match cls with
  | CExecutable => "Executable"
  | CReconnectProxy => "ReconnectProxy"
  end.

Definition class_of `{Client} (i : Instance) : ClassTag :=
  match i with
  | IExecutable _ => CExecutable
  | IProxy _ => CReconnectProxy
  end.

(** The instance dictionary: what [__init__] has stored on [self]. *)
Definition instance_dict `{Client} (i : Instance) : gmap string Value :=
  match i with
  | IExecutable e => {[ "method" := VRaw (method e) ]}
  | IProxy p => {[ "conn" := VRaw (conn p) ]}
  end.

(** The [__getattr__] of the instance's class, if the class has one. *)
Definition getattr_hook `{Client} (i : Instance) : option (string → M Value) :=
  match i with
  | IExecutable _ => None
  | IProxy p => Some (ReconnectProxy.__getattr__ p)
  end.

(** [i.name]: the instance dictionary, then the class and what the
    interpreter gives every instance ([runtime]: the members of the built-in
    base type and the bookkeeping entries of a class), then the class's
    [__getattr__]; without one, [AttributeError]. *)
Definition getattr_instance `{Client} (runtime : list string)
    (i : Instance) (name : string) : M Value :=
  match instance_dict i !! name with
  | Some v => mret v
  | None =>
      if bool_decide (name ∈ class_body (class_of i) ++ runtime) then
        mret (VBound i name)
      else
        match getattr_hook i with
        | Some hook => hook name
        | None => raise (AttributeError (class_name (class_of i)) name)
        end
  end.

(** Members an instance has from the interpreter and not from its class body:
    those of the built-in base type [object] that the two class bodies do
    not redefine ([__getstate__] among them, as from Python 3.11), and the
    bookkeeping entries of a class. *)
Definition object_members : list string :=
  ["__class__"; "__delattr__"; "__eq__"; "__format__"; "__ge__";
   "__getattribute__"; "__getstate__"; "__gt__"; "__hash__";
   "__init_subclass__"; "__le__";
   "__lt__"; "__ne__"; "__new__"; "__reduce__"; "__reduce_ex__";
   "__setattr__"; "__sizeof__"; "__subclasshook__";
   "__dict__"; "__module__"; "__weakref__"].

(** [bool(i)]: the class's [__bool__] if it has one; a class with neither
    [__bool__] nor [__len__] makes every instance true. *)
Definition truth_of_instance `{Client} (i : Instance) : M bool :=
  match i with
  | IExecutable _ => mret true
  | IProxy p => ReconnectProxy.__bool__ p
  end.

(** [bool(o)] for an object of the client library. *)
Definition truth_of_obj `{Client} (o : Obj) : M bool := inspect (py_bool o).

(** ** Consecutive attempts and the trace of a retried call *)

(** The state of the client after [n] consecutive runs of [op]. *)
Fixpoint after {S A : Type} (op : S → Res A * S) (n : nat) (s : S) : S :=
  match n with
  | O => s
  | S n' => after op n' (op s).2
  end.

(** The outcome of the run that follows [n] earlier ones. *)
Definition attempt {S A : Type} (op : S → Res A * S) (n : nat) (s : S) : Res A :=
  (op (after op n s)).1.

(** One failed attempt with its warning and its delay. *)
Definition cycle (i : Z) : list Event :=
  [EvInvoke; EvWarning (retry_message i); EvSleep (2 ^ i)].

(** [k] failed-then-delayed attempts and the attempt that ends the call. *)
Definition retry_trace (k : nat) : list Event :=
  (range k ≫= cycle) ++ [EvInvoke].

Definition warnings (t : list Event) : list string :=
  t ≫= λ ev, match ev with EvWarning msg => [msg] | _ => [] end.

Definition delays (t : list Event) : list Z :=
  t ≫= λ ev, match ev with EvSleep d => [d] | _ => [] end.

Definition invocations (t : list Event) : nat :=
  length (t ≫= λ ev, match ev with EvInvoke => [tt] | _ => [] end).

(** ** A mock client, for concrete runs *)

Module Mock.

Inductive obj :=
| Conn | Find | Insert | Remove | Internal | Db | Host | Result | Count | Name
| StrMethod | ConnectionClass.

Definition AutoReconnect_exc : PyExc :=
  {| exc_mro := ["pymongo.errors.AutoReconnect"; "pymongo.errors.ConnectionFailure";
                 "pymongo.errors.PyMongoError"; "Exception"; "BaseException"; "object"];
     exc_msg := "connection closed" |}.

Definition OperationFailure_exc : PyExc :=
  {| exc_mro := ["pymongo.errors.OperationFailure"; "pymongo.errors.PyMongoError";
                 "Exception"; "BaseException"; "object"];
     exc_msg := "not authorized" |}.

Definition KeyError_exc (key : string) : PyExc :=
  {| exc_mro := ["KeyError"; "LookupError"; "Exception"; "BaseException"; "object"];
     exc_msg := key |}.

(** The members of the connection. *)
Definition conn_members : gmap string obj :=
  list_to_map
    [("find", Find); ("insert", Insert); ("remove", Remove);
     ("_internal", Internal); ("host", Host); ("conn", Db);
     ("__str__", StrMethod); ("__class__", ConnectionClass)].

Definition conn_items : gmap string obj :=
  list_to_map [("db", Db); ("count", Count)].

(** The attributes of the bound method [find]. *)
Definition find_members : gmap string obj :=
  list_to_map [("__name__", Name); ("__self__", Conn)].

Definition getattr (o : obj) (name : string) (s : nat) : Res obj * nat :=
  match o with
  | Conn =>
      match conn_members !! name with
      | Some v => (Return v, s)
      | None => (Raise (AttributeError "Connection" name), s)
      end
  | Find =>
      match find_members !! name with
      | Some v => (Return v, s)
      | None => (Raise (AttributeError "method" name), s)
      end
  | _ => (Raise (AttributeError "object" name), s)
  end.

Definition getitem (o : obj) (key : string) (s : nat) : Res obj * nat :=
  match o with
  | Conn =>
      match conn_items !! key with
      | Some v => (Return v, s)
      | None => (Raise (KeyError_exc key), s)
      end
  | _ => (Raise (TypeError "object is not subscriptable"), s)
  end.

(** The state counts the invocations so far.  [find] fails twice with
    [AutoReconnect] and then answers; [insert] always fails with it;
    [remove] fails once with it and then with another error. *)
Definition invoke (o : obj) (args : unit) (s : nat) : Res obj * nat :=
  match o with
  | Find =>
      if (s <? 2)%nat then (Raise AutoReconnect_exc, S s) else (Return Result, S s)
  | Insert => (Raise AutoReconnect_exc, S s)
  | Remove =>
      if (s <? 1)%nat then (Raise AutoReconnect_exc, S s)
      else (Raise OperationFailure_exc, S s)
  | Internal => (Return Count, S s)
  | _ => (Raise (TypeError "object is not callable"), s)
  end.

Definition callable (o : obj) : bool :=
  match o with
  | Find | Insert | Remove | Internal | Db | StrMethod | ConnectionClass => true
  | _ => false
  end.

(** The connection is false in a boolean context. *)
Definition truth (o : obj) (s : nat) : Res bool * nat :=
  match o with
  | Conn | Count => (Return false, s)
  | _ => (Return true, s)
  end.

Definition members (o : obj) (s : nat) : Res (list string) * nat :=
  match o with
  | Conn => (Return (elements (dom conn_members)), s)
  | _ => (Return [], s)
  end.

Definition str (o : obj) (s : nat) : Res string * nat :=
  match o with
  | Conn => (Return "Connection('localhost', 27017)", s)
  | _ => (Return "<object>", s)
  end.

(** A root type with a public and a private invocable member and a plain
    attribute. *)
Definition Collection : gmap string obj :=
  list_to_map [("find", Find); ("_internal", Internal); ("host", Host)].

Definition Connection : gmap string obj :=
  list_to_map [("find", Find); ("insert", Insert); ("remove", Remove)].

Definition library : Client :=
  {| St := nat; Obj := obj; Args := unit; Key := string;
     py_getattr := getattr; py_getitem := getitem; py_invoke := invoke;
     py_callable := callable; py_bool := truth; py_dir := members;
     py_str := str; py_repr := str;
     pymongo_collection_Collection := Collection;
     pymongo_Connection := Connection;
     pymongo := ∅ |}.

(** The world before anything has run. *)
Definition w0 : @World library := @Build_World library 0%nat [] 0%nat.

Definition proxy : @ReconnectProxy library := @Build_ReconnectProxy library 0%nat Conn.

Definition executable : @Executable library := @Build_Executable library 1%nat Find.

End Mock.

(** ** Time slept, and a scripted operation *)

(** The time slept over a trace, in all. *)
Definition total_delay (t : list Event) : Z := foldr Z.add 0 (delays t).

Module Scenario.

(** An operation on the mock library's state that fails with
    [AutoReconnect] while fewer than [n] runs have been made and answers from
    then on. *)
Definition flaky (n : nat) (args : unit) (s : nat) : Res Mock.obj * nat :=
  if (s <? n)%nat then (Raise Mock.AutoReconnect_exc, S s)
  else (Return Mock.Result, S s).

(** A connection on which [find] is a plain attribute, not a method: the
    other members are those of the mock connection. *)
Definition plain_getattr (o : Mock.obj) (name : string) (s : nat) : Res Mock.obj * nat :=
  match o with
  | Mock.Conn =>
      if bool_decide (name = "find") then (Return Mock.Host, s)
      else Mock.getattr o name s
  | _ => Mock.getattr o name s
  end.

(** The mock library with that connection; the root types are unchanged, so
    [find] is in the operation set. *)
Definition plain_library : Client :=
  {| St := nat; Obj := Mock.obj; Args := unit; Key := string;
     py_getattr := plain_getattr; py_getitem := Mock.getitem;
     py_invoke := Mock.invoke; py_callable := Mock.callable;
     py_bool := Mock.truth; py_dir := Mock.members;
     py_str := Mock.str; py_repr := Mock.str;
     pymongo_collection_Collection := Mock.Collection;
     pymongo_Connection := Mock.Connection;
     pymongo := ∅ |}.

Definition plain_w0 : @World plain_library := @Build_World plain_library 0%nat [] 0%nat.

Definition plain_proxy : @ReconnectProxy plain_library :=
  @Build_ReconnectProxy plain_library 0%nat Mock.Conn.

(** A proxy around an object of the mock library that has no member
    [find]. *)
Definition db_proxy : @ReconnectProxy Mock.library :=
  @Build_ReconnectProxy Mock.library 0%nat Mock.Db.

End Scenario.

(** * Properties *)

(** ** The retry loop *)

Lemma range_S (n : nat) : range (S n) = range n ++ [Z.of_nat n].
Proof. unfold range. rewrite seq_S, fmap_app. reflexivity. Qed.

Lemma range_length (n : nat) : length (range n) = n.
Proof. unfold range. rewrite length_fmap. apply length_seq. Qed.

Lemma take_range (j n : nat) : (j ≤ n)%nat → take j (range n) = range j.
Proof.
  intros Hle. unfold range. rewrite <- fmap_take. f_equal.
  revert j Hle. generalize 0%nat.
  induction n as [|n IH]; intros a [|j] Hle; simpl; try reflexivity; try lia.
  f_equal. apply IH. lia.
Qed.

Lemma warnings_app (t u : list Event) : warnings (t ++ u) = warnings t ++ warnings u.
Proof. apply bind_app. Qed.

Lemma delays_app (t u : list Event) : delays (t ++ u) = delays t ++ delays u.
Proof. apply bind_app. Qed.

Lemma invocations_app (t u : list Event) :
  invocations (t ++ u) = (invocations t + invocations u)%nat.
Proof. unfold invocations. rewrite bind_app. apply length_app. Qed.

Lemma cycles_S (k : nat) :
  range (S k) ≫= cycle = (range k ≫= cycle) ++ cycle (Z.of_nat k).
Proof. rewrite range_S, bind_app. reflexivity. Qed.

Lemma warnings_cycles (k : nat) :
  warnings (range k ≫= cycle) = retry_message <$> range k.
Proof.
  induction k as [|k IH]; [reflexivity|].
  rewrite cycles_S, warnings_app, IH, range_S, fmap_app. reflexivity.
Qed.

Lemma delays_cycles (k : nat) :
  delays (range k ≫= cycle) = (λ i, 2 ^ i) <$> range k.
Proof.
  induction k as [|k IH]; [reflexivity|].
  rewrite cycles_S, delays_app, IH, range_S, fmap_app. reflexivity.
Qed.

Lemma invocations_cycles (k : nat) : invocations (range k ≫= cycle) = k.
Proof.
  induction k as [|k IH]; [reflexivity|].
  rewrite cycles_S, invocations_app, IH. unfold invocations. simpl. lia.
Qed.

Lemma retry_trace_observed (k : nat) :
  warnings (retry_trace k) = retry_message <$> range k
  ∧ delays (retry_trace k) = (λ i, 2 ^ i) <$> range k
  ∧ invocations (retry_trace k) = S k.
Proof.
  unfold retry_trace.
  rewrite warnings_app, delays_app, invocations_app.
  rewrite warnings_cycles, delays_cycles, invocations_cycles.
  unfold warnings, delays, invocations. simpl.
  rewrite !app_nil_r. repeat split. lia.
Qed.

Lemma attempt_S {S A : Type} (op : S → Res A * S) (n : nat) (s : S) :
  attempt op (Datatypes.S n) s = attempt op n (op s).2.
Proof. reflexivity. Qed.

(** The loop run on a client operation: if the first [j] attempts fail with
    the transient error, and either the loop's range is then used up or the
    next attempt ends otherwise, that next attempt ends the call. *)
Lemma retry_loop_run `{Client} {A} (op : St → Res A * St) (rng : list Z) :
  ∀ (j : nat) (w : World),
    (j ≤ length rng)%nat →
    (∀ i, (i < j)%nat → transient (attempt op i (client w)) = true) →
    j = length rng ∨ transient (attempt op j (client w)) = false →
    retry_loop (perform op) rng w =
      (attempt op j (client w),
       {| client := after op (S j) (client w);
          trace := trace w ++ (take j rng ≫= cycle) ++ [EvInvoke];
          next_id := next_id w |}).
Proof.
  induction rng as [|i rng IH]; intros j w Hle Hfail Hend.
  - assert (j = 0%nat) as -> by (simpl in Hle; lia).
    simpl. unfold perform, attempt. simpl.
    destruct (op (client w)) as [r s]. reflexivity.
  - destruct j as [|j].
    + destruct Hend as [Hend|Hend]; [discriminate|].
      simpl. unfold try_except, perform.
      unfold attempt in Hend. simpl in Hend. unfold attempt. simpl.
      destruct (op (client w)) as [[v|e] s]; simpl in *; [reflexivity|].
      rewrite Hend. reflexivity.
    + pose proof (Hfail 0%nat ltac:(lia)) as H0.
      unfold attempt in H0. simpl in H0.
      simpl retry_loop. unfold try_except at 1. unfold perform at 1.
      destruct (op (client w)) as [[v|e] s] eqn:Eop; simpl in H0; [discriminate|].
      rewrite H0.
      unfold mbind, M_bind, logger_warning, time_sleep, emit. simpl.
      rewrite (IH j); simpl.
      * rewrite !attempt_S, Eop. simpl.
        rewrite <- !app_assoc. reflexivity.
      * simpl in Hle. lia.
      * intros k Hk. specialize (Hfail (S k) ltac:(lia)).
        rewrite attempt_S, Eop in Hfail. exact Hfail.
      * destruct Hend as [Hend|Hend].
        -- left. simpl in Hend. lia.
        -- right. rewrite attempt_S, Eop in Hend. exact Hend.
Qed.

(** The wrapper applied to a client operation, for [j ≤ 4] transient
    failures followed by an attempt that ends the call. *)
Lemma safe_mongocall_run `{Client} {A B} (op : B → St → Res A * St)
    (args : B) (j : nat) (w : World) :
  (j ≤ 4)%nat →
  (∀ i, (i < j)%nat → transient (attempt (op args) i (client w)) = true) →
  j = 4%nat ∨ transient (attempt (op args) j (client w)) = false →
  safe_mongocall (λ a, perform (op a)) args w =
    (attempt (op args) j (client w),
     {| client := after (op args) (S j) (client w);
        trace := trace w ++ retry_trace j;
        next_id := next_id w |}).
Proof.
  intros Hle Hfail Hend.
  unfold safe_mongocall, _safe_mongocall, retry_trace.
  rewrite (retry_loop_run (op args) (range 4) j w).
  - rewrite take_range by exact Hle. reflexivity.
  - rewrite range_length. exact Hle.
  - exact Hfail.
  - rewrite range_length. exact Hend.
Qed.

(** C1: an operation that raises the transient error on every attempt is
    attempted five times through the wrapper.  Each of the first four
    failures is followed by one warning and one delay, of 1, 2, 4 and 8; the
    fifth attempt is followed by neither, and the error it raised is the
    outcome of the call. *)
Theorem safe_mongocall_exhaustion `{Client} {A B} (op : B → St → Res A * St)
    (args : B) (w : World) :
  (∀ s, transient (op args s).1 = true) →
  ∃ e,
    attempt (op args) 4 (client w) = Raise e
    ∧ isinstance e AutoReconnect = true
    ∧ safe_mongocall (λ a, perform (op a)) args w =
        (Raise e,
         {| client := after (op args) 5 (client w);
            trace := trace w ++
              [EvInvoke; EvWarning "AutoReconnecting, try 0"; EvSleep 1;
               EvInvoke; EvWarning "AutoReconnecting, try 1"; EvSleep 2;
               EvInvoke; EvWarning "AutoReconnecting, try 2"; EvSleep 4;
               EvInvoke; EvWarning "AutoReconnecting, try 3"; EvSleep 8;
               EvInvoke];
            next_id := next_id w |}).
Proof.
  intros Hall.
  pose proof (Hall (after (op args) 4 (client w))) as H4.
  fold (attempt (op args) 4 (client w)) in H4.
  destruct (attempt (op args) 4 (client w)) as [v|e] eqn:E4; [discriminate|].
  exists e. split; [reflexivity|]. split; [exact H4|].
  rewrite (safe_mongocall_run op args 4 w).
  - rewrite E4. reflexivity.
  - lia.
  - intros i _. apply Hall.
  - left. reflexivity.
Qed.

Lemma safe_mongocall_exhaustion_witness :
  ∃ e,
    attempt (Mock.invoke Mock.Insert tt) 4 0%nat = Raise e
    ∧ isinstance e AutoReconnect = true
    ∧ @safe_mongocall Mock.library _ _
        (λ a, @perform Mock.library _ (Mock.invoke Mock.Insert a)) tt Mock.w0 =
        (Raise e,
         @Build_World Mock.library 5%nat
           [EvInvoke; EvWarning "AutoReconnecting, try 0"; EvSleep 1;
            EvInvoke; EvWarning "AutoReconnecting, try 1"; EvSleep 2;
            EvInvoke; EvWarning "AutoReconnecting, try 2"; EvSleep 4;
            EvInvoke; EvWarning "AutoReconnecting, try 3"; EvSleep 8;
            EvInvoke] 0%nat).
Proof.
  apply (@safe_mongocall_exhaustion Mock.library _ _
           (λ a, Mock.invoke Mock.Insert a) tt Mock.w0).
  intros s. reflexivity.
Defined.

(** C2: an operation that raises the transient error exactly [k] times,
    [0 ≤ k ≤ 3], and then returns [v]: the call through the wrapper returns
    [v]; it logs [k] warnings, the i-th naming attempt [i], and sleeps [k]
    times, for 2^0, ..., 2^(k-1) in this order; with [k = 0] the only event
    is the single attempt. *)
Theorem safe_mongocall_retry_success `{Client} {A B} (op : B → St → Res A * St)
    (args : B) (k : nat) (v : A) (w : World) :
  (k ≤ 3)%nat →
  (∀ i, (i < k)%nat → transient (attempt (op args) i (client w)) = true) →
  attempt (op args) k (client w) = Return v →
  safe_mongocall (λ a, perform (op a)) args w =
    (Return v,
     {| client := after (op args) (S k) (client w);
        trace := trace w ++ retry_trace k;
        next_id := next_id w |})
  ∧ warnings (retry_trace k) = (λ i, "AutoReconnecting, try " +:+ pretty i) <$> range k
  ∧ delays (retry_trace k) = (λ i, 2 ^ i) <$> range k
  ∧ invocations (retry_trace k) = S k
  ∧ (k = 0%nat → retry_trace k = [EvInvoke]).
Proof.
  intros Hk Hfail Hok.
  destruct (retry_trace_observed k) as (Hw & Hd & Hi).
  split; [|split; [exact Hw|split; [exact Hd|split; [exact Hi|]]]].
  - rewrite (safe_mongocall_run op args k w).
    + rewrite Hok. reflexivity.
    + lia.
    + exact Hfail.
    + right. rewrite Hok. reflexivity.
  - intros ->. reflexivity.
Qed.

Lemma safe_mongocall_retry_success_witness :
  @safe_mongocall Mock.library _ _
    (λ a, @perform Mock.library _ (Mock.invoke Mock.Find a)) tt Mock.w0 =
    (Return Mock.Result,
     @Build_World Mock.library 3%nat
       [EvInvoke; EvWarning "AutoReconnecting, try 0"; EvSleep 1;
        EvInvoke; EvWarning "AutoReconnecting, try 1"; EvSleep 2;
        EvInvoke] 0%nat).
Proof.
  refine (proj1 (@safe_mongocall_retry_success Mock.library _ _
                   (λ a, Mock.invoke Mock.Find a) tt 2%nat Mock.Result Mock.w0 _ _ _)).
  - lia.
  - intros [|[|i]] Hi; [reflexivity|reflexivity|lia].
  - reflexivity.
Defined.

(** C3: an error that is not of the transient kind, raised at the first
    attempt or after [j ≤ 4] transient failures, ends the call at once: it is
    the outcome, unchanged; no attempt follows it, and the only warnings and
    delays are those of the [j] transient failures before it. *)
Theorem safe_mongocall_other_error `{Client} {A B} (op : B → St → Res A * St)
    (args : B) (j : nat) (e : PyExc) (w : World) :
  (j ≤ 4)%nat →
  (∀ i, (i < j)%nat → transient (attempt (op args) i (client w)) = true) →
  attempt (op args) j (client w) = Raise e →
  isinstance e AutoReconnect = false →
  safe_mongocall (λ a, perform (op a)) args w =
    (Raise e,
     {| client := after (op args) (S j) (client w);
        trace := trace w ++ retry_trace j;
        next_id := next_id w |})
  ∧ warnings (retry_trace j) = retry_message <$> range j
  ∧ delays (retry_trace j) = (λ i, 2 ^ i) <$> range j
  ∧ invocations (retry_trace j) = S j
  ∧ (j = 0%nat → retry_trace j = [EvInvoke]).
Proof.
  intros Hj Hfail Herr Hother.
  destruct (retry_trace_observed j) as (Hw & Hd & Hi).
  split; [|split; [exact Hw|split; [exact Hd|split; [exact Hi|]]]].
  - rewrite (safe_mongocall_run op args j w).
    + rewrite Herr. reflexivity.
    + exact Hj.
    + exact Hfail.
    + right. rewrite Herr. exact Hother.
  - intros ->. reflexivity.
Qed.

Lemma safe_mongocall_other_error_witness :
  @safe_mongocall Mock.library _ _
    (λ a, @perform Mock.library _ (Mock.invoke Mock.Remove a)) tt Mock.w0 =
    (Raise Mock.OperationFailure_exc,
     @Build_World Mock.library 2%nat
       [EvInvoke; EvWarning "AutoReconnecting, try 0"; EvSleep 1; EvInvoke] 0%nat).
Proof.
  refine (proj1 (@safe_mongocall_other_error Mock.library _ _
                   (λ a, Mock.invoke Mock.Remove a) tt 1%nat
                   Mock.OperationFailure_exc Mock.w0 _ _ _ _)).
  - lia.
  - intros [|i] Hi; [reflexivity|lia].
  - reflexivity.
  - reflexivity.
Defined.

(** ** Names bound in the module *)

Lemma load_global_Executable `{Client} (w : World) :
  load_global "Executable" w = (Return (GClass CExecutable), w).
Proof. reflexivity. Qed.

Lemma load_global_MongoProxy `{Client} (w : World) :
  load_global "MongoProxy" w = (Raise (NameError "MongoProxy"), w).
Proof. reflexivity. Qed.

(** ** Indexing the proxy *)

(** An item that is not invocable is handed over as it is. *)
Lemma getitem_plain `{Client} (p : ReconnectProxy) (key : Key) (item : Obj)
    (w : World) (s' : St) :
  py_getitem (conn p) key (client w) = (Return item, s') →
  py_callable item = false →
  ReconnectProxy.__getitem__ p key w =
    (Return (VRaw item),
     {| client := s'; trace := trace w; next_id := next_id w |}).
Proof.
  intros Hitem Hcall.
  unfold ReconnectProxy.__getitem__, mbind, M_bind, inspect.
  rewrite Hitem, Hcall. reflexivity.
Qed.

(** For an invocable item the method reads the global [MongoProxy], which the
    module does not bind. *)
Lemma getitem_invocable `{Client} (p : ReconnectProxy) (key : Key) (item : Obj)
    (w : World) (s' : St) :
  py_getitem (conn p) key (client w) = (Return item, s') →
  py_callable item = true →
  ReconnectProxy.__getitem__ p key w =
    (Raise (NameError "MongoProxy"),
     {| client := s'; trace := trace w; next_id := next_id w |}).
Proof.
  intros Hitem Hcall.
  unfold ReconnectProxy.__getitem__, mbind, M_bind, inspect.
  rewrite Hitem, Hcall, load_global_MongoProxy. reflexivity.
Qed.

(** C4: on the mock connection, whose item ["db"] is invocable, indexing the
    proxy with ["db"] does not return a proxy around that item: it raises
    [NameError], the name [MongoProxy] being unbound. *)
Theorem getitem_invocable_raises_NameError :
  Mock.callable Mock.Db = true
  ∧ Mock.getitem Mock.Conn "db" 0%nat = (Return Mock.Db, 0%nat)
  ∧ @ReconnectProxy.__getitem__ Mock.library Mock.proxy "db" Mock.w0 =
      (Raise (NameError "MongoProxy"), Mock.w0).
Proof.
  split; [reflexivity|]. split; [reflexivity|].
  apply (@getitem_invocable Mock.library Mock.proxy "db" Mock.Db Mock.w0 0%nat);
    reflexivity.
Qed.

(** ** Calling the proxy *)

(** C8: calling the proxy invokes the wrapped object once, with the same
    arguments; the outcome of the call, a value or any error, the transient
    kind included, is that of the wrapped object; nothing is logged, no delay
    is taken and nothing is retried. *)
Theorem proxy_call_forwards `{Client} (p : ReconnectProxy) (args : Args) (w : World) :
  ReconnectProxy.__call__ p args w =
    ((py_invoke (conn p) args (client w)).1,
     {| client := (py_invoke (conn p) args (client w)).2;
        trace := trace w ++ [EvInvoke];
        next_id := next_id w |})
  ∧ warnings [EvInvoke] = []
  ∧ delays [EvInvoke] = []
  ∧ invocations [EvInvoke] = 1%nat.
Proof.
  split; [|repeat split].
  unfold ReconnectProxy.__call__, perform.
  destruct (py_invoke (conn p) args (client w)) as [r s]. reflexivity.
Qed.

(** ** Truth value of the proxy *)

(** C7: in a boolean context a proxy is true, and testing it neither reads
    nor changes the wrapped object; this holds whatever the truth test of the
    wrapped object gives, in particular when it gives false. *)
Theorem proxy_truth `{Client} (p : ReconnectProxy) (w : World) :
  truth_of_instance (IProxy p) w = (Return true, w)
  ∧ ((truth_of_obj (conn p) w).1 = Return false →
     (truth_of_instance (IProxy p) w).1 = Return true).
Proof. split; [reflexivity|]. intros _. reflexivity. Qed.

Lemma proxy_truth_witness :
  (@truth_of_obj Mock.library Mock.Conn Mock.w0).1 = Return false
  ∧ (@truth_of_instance Mock.library (IProxy Mock.proxy) Mock.w0).1 = Return true.
Proof.
  split; [reflexivity|].
  apply (proj2 (@proxy_truth Mock.library Mock.proxy Mock.w0)). reflexivity.
Defined.

(** ** The operation set *)

Lemma elem_of_get_methods `{Client} (objs : list (gmap string Obj)) (name : string) :
  name ∈ get_methods objs ↔
  ∃ obj v, obj ∈ objs ∧ obj !! name = Some v
           ∧ startswith name "_" = false ∧ py_callable v = true.
Proof.
  unfold get_methods. rewrite elem_of_list_to_set, list_elem_of_bind.
  split.
  - intros (obj & Hin & Hobj).
    apply list_elem_of_bind in Hin as (attr & Hin & Hattr).
    unfold dir in Hattr. apply elem_of_elements, elem_of_dom in Hattr as [v Hv].
    destruct (startswith attr "_") eqn:Hpre; simpl in Hin;
      [apply elem_of_nil in Hin; contradiction|].
    unfold has_call in Hin. rewrite Hv in Hin.
    destruct (py_callable v) eqn:Hcall;
      [|apply elem_of_nil in Hin; contradiction].
    apply list_elem_of_singleton in Hin as ->.
    exists obj, v. repeat split; assumption.
  - intros (obj & v & Hobj & Hv & Hpre & Hcall).
    exists obj. split; [|exact Hobj].
    apply list_elem_of_bind. exists name. split.
    + unfold has_call. rewrite Hpre, Hv, Hcall. simpl. apply list_elem_of_here.
    + unfold dir. apply elem_of_elements, elem_of_dom. exists v. exact Hv.
Qed.

(** C6: a name is in the result of [get_methods] exactly when one of the
    root types has a member of that name that does not begin with ['_'] and
    whose value is invocable; the result has no duplicates; a public
    invocable [find] of a root type is in it and [_internal] is not. *)
Theorem get_methods_spec `{Client} (objs : list (gmap string Obj)) :
  (∀ name, name ∈ get_methods objs ↔
     ∃ obj v, obj ∈ objs ∧ obj !! name = Some v
              ∧ startswith name "_" = false ∧ py_callable v = true)
  ∧ NoDup (elements (get_methods objs))
  ∧ (∀ obj find, obj ∈ objs → obj !! "find" = Some find →
       py_callable find = true → "find" ∈ get_methods objs)
  ∧ "_internal" ∉ get_methods objs.
Proof.
  split; [apply elem_of_get_methods|]. split; [apply NoDup_elements|]. split.
  - intros obj find Hobj Hfind Hcall. apply elem_of_get_methods.
    exists obj, find. repeat split; assumption.
  - intros Hin. apply elem_of_get_methods in Hin as (obj & v & _ & _ & Hpre & _).
    discriminate.
Qed.

Lemma get_methods_spec_witness :
  "find" ∈ (@get_methods Mock.library [Mock.Collection])
  ∧ "_internal" ∉ (@get_methods Mock.library [Mock.Collection]).
Proof.
  destruct (@get_methods_spec Mock.library [Mock.Collection])
    as (_ & _ & Hfind & Hinternal).
  split; [|exact Hinternal].
  apply (Hfind Mock.Collection Mock.Find).
  - apply list_elem_of_here.
  - reflexivity.
  - reflexivity.
Defined.

(** ** Attribute access on the proxy *)

(** A name that ordinary lookup does not find on the proxy goes to the
    class's [__getattr__]. *)
Lemma proxy_getattr_reaches_hook `{Client} (runtime : list string)
    (p : ReconnectProxy) (key : string) (w : World) :
  key ≠ "conn" →
  key ∉ class_body CReconnectProxy ++ runtime →
  getattr_instance runtime (IProxy p) key w = ReconnectProxy.__getattr__ p key w.
Proof.
  intros Hconn Hbody. unfold getattr_instance, instance_dict.
  rewrite lookup_singleton_ne by congruence.
  unfold class_of. rewrite bool_decide_eq_false_2 by exact Hbody.
  reflexivity.
Qed.

(** The three cases of lines 94-97. *)
Lemma getattr_hook_run `{Client} (p : ReconnectProxy) (key : string) (attr : Obj)
    (w : World) (s' : St) :
  py_getattr (conn p) key (client w) = (Return attr, s') →
  ReconnectProxy.__getattr__ p key w =
    if py_callable attr && bool_decide (key ∈ EXECUTABLE_MONGO_METHODS) then
      (Return (VInst (IExecutable {| exec_id := next_id w; method := attr |})),
       {| client := s'; trace := trace w; next_id := S (next_id w) |})
    else
      (Return (VRaw attr),
       {| client := s'; trace := trace w; next_id := next_id w |}).
Proof.
  intros Hattr.
  unfold ReconnectProxy.__getattr__, mbind, M_bind, inspect.
  rewrite Hattr.
  destruct (py_callable attr && bool_decide (key ∈ EXECUTABLE_MONGO_METHODS));
    reflexivity.
Qed.

(** Calling an [Executable] is the retry loop around its method. *)
Lemma Executable_call_is_retry `{Client} (e : Executable) (args : Args) (w : World) :
  Executable.__call__ e args w =
  safe_mongocall (λ a, perform (py_invoke (method e) a)) args w.
Proof. reflexivity. Qed.

(** C5, amended: for a member name that ordinary lookup does not find on the
    proxy itself (it is not [conn], not bound by the class body and not given
    by the interpreter), attribute access resolves the member of the wrapped
    object and returns a new [Executable] around it, whose call is the retry
    loop, if the member is invocable and the name is in the operation set;
    otherwise it returns the member as direct access gives it. *)
Theorem proxy_getattr_classifies `{Client} (runtime : list string)
    (p : ReconnectProxy) (key : string) (attr : Obj) (w : World) (s' : St) :
  key ≠ "conn" →
  key ∉ class_body CReconnectProxy ++ runtime →
  py_getattr (conn p) key (client w) = (Return attr, s') →
  (py_callable attr = true → key ∈ EXECUTABLE_MONGO_METHODS →
     getattr_instance runtime (IProxy p) key w =
       (Return (VInst (IExecutable {| exec_id := next_id w; method := attr |})),
        {| client := s'; trace := trace w; next_id := S (next_id w) |})
     ∧ ∀ args w1,
         Executable.__call__ {| exec_id := next_id w; method := attr |} args w1 =
         safe_mongocall (λ a, perform (py_invoke attr a)) args w1)
  ∧ (py_callable attr = true → key ∉ EXECUTABLE_MONGO_METHODS →
     getattr_instance runtime (IProxy p) key w =
       (Return (VRaw attr), {| client := s'; trace := trace w; next_id := next_id w |}))
  ∧ (py_callable attr = false →
     getattr_instance runtime (IProxy p) key w =
       (Return (VRaw attr), {| client := s'; trace := trace w; next_id := next_id w |})).
Proof.
  intros Hconn Hbody Hattr.
  rewrite (proxy_getattr_reaches_hook runtime p key w Hconn Hbody).
  rewrite (getattr_hook_run p key attr w s' Hattr).
  split; [|split].
  - intros Hcall Hin. rewrite Hcall, bool_decide_eq_true_2 by exact Hin.
    split; [reflexivity|]. intros args w1. reflexivity.
  - intros Hcall Hnin. rewrite Hcall, bool_decide_eq_false_2 by exact Hnin.
    reflexivity.
  - intros Hcall. rewrite Hcall. reflexivity.
Qed.

Lemma mock_find_classified : "find" ∈ (@EXECUTABLE_MONGO_METHODS Mock.library).
Proof.
  apply (@elem_of_get_methods Mock.library).
  exists Mock.Collection, Mock.Find.
  split; [apply list_elem_of_here|]. repeat split; reflexivity.
Defined.

Lemma mock_conn_not_classified : "conn" ∉ (@EXECUTABLE_MONGO_METHODS Mock.library).
Proof.
  intros Hin. apply (@elem_of_get_methods Mock.library) in Hin
    as (obj & v & Hobj & Hv & _ & _).
  repeat (apply elem_of_cons in Hobj as [->|Hobj]; [discriminate Hv|]).
  apply elem_of_nil in Hobj. exact Hobj.
Qed.

Lemma proxy_getattr_classifies_witness :
  @getattr_instance Mock.library object_members
    (@IProxy Mock.library Mock.proxy) "find" Mock.w0 =
    (Return (@VInst Mock.library
               (IExecutable (@Build_Executable Mock.library 0%nat Mock.Find))),
     @Build_World Mock.library 0%nat [] 1%nat).
Proof.
  refine (proj1 (proj1 (@proxy_getattr_classifies Mock.library object_members
                          Mock.proxy "find" Mock.Find Mock.w0 0%nat _ _ _) _ _)).
  - discriminate.
  - intros Hin. apply list_elem_of_In in Hin. simpl in Hin.
    repeat (destruct Hin as [Hin|Hin]; [discriminate Hin|]). exact Hin.
  - reflexivity.
  - reflexivity.
  - exact mock_find_classified.
Defined.

(** C5 as stated fails for the name [conn]: the mock connection has an
    invocable member [conn] outside the operation set, yet [proxy.conn] is
    the wrapped connection itself, found on the proxy by ordinary lookup.
    Likewise [__str__] is the proxy's own method and [__class__] its own
    class, not the members of the wrapped connection. *)
Lemma proxy_getattr_conn_is_own_field :
  Mock.getattr Mock.Conn "conn" 0%nat = (Return Mock.Db, 0%nat)
  ∧ Mock.callable Mock.Db = true
  ∧ ("conn" ∉ @EXECUTABLE_MONGO_METHODS Mock.library)
  ∧ @getattr_instance Mock.library object_members
      (@IProxy Mock.library Mock.proxy) "conn" Mock.w0 =
      (Return (@VRaw Mock.library Mock.Conn), Mock.w0)
  ∧ (@getattr_instance Mock.library object_members
       (@IProxy Mock.library Mock.proxy) "conn" Mock.w0 ≠
       (Return (@VRaw Mock.library Mock.Db), Mock.w0))
  ∧ Mock.getattr Mock.Conn "__str__" 0%nat = (Return Mock.StrMethod, 0%nat)
  ∧ (@getattr_instance Mock.library object_members
       (@IProxy Mock.library Mock.proxy) "__str__" Mock.w0 ≠
       (Return (@VRaw Mock.library Mock.StrMethod), Mock.w0))
  ∧ Mock.getattr Mock.Conn "__class__" 0%nat = (Return Mock.ConnectionClass, 0%nat)
  ∧ (@getattr_instance Mock.library object_members
       (@IProxy Mock.library Mock.proxy) "__class__" Mock.w0 ≠
       (Return (@VRaw Mock.library Mock.ConnectionClass), Mock.w0)).
Proof.
  split; [reflexivity|]. split; [reflexivity|].
  split; [exact mock_conn_not_classified|].
  split; [reflexivity|].
  repeat split; try reflexivity; discriminate.
Qed.

(** ** Attribute access on an [Executable] *)

(** C10, amended: [Executable] has no [__getattr__].  For every name other
    than [method], the names its class body binds and the names the
    interpreter gives every instance, attribute access raises
    [AttributeError]; the wrapped method is not consulted (the world is
    untouched), also when the method has an attribute of that name.  Member
    listing and string conversion are passed to the method. *)
Theorem executable_getattr_raises `{Client} (runtime : list string)
    (e : Executable) (name : string) (w : World) :
  name ≠ "method" →
  name ∉ class_body CExecutable →
  name ∉ runtime →
  getattr_instance runtime (IExecutable e) name w =
    (Raise (AttributeError "Executable" name), w)
  ∧ (∀ v s', py_getattr (method e) name (client w) = (Return v, s') →
       (getattr_instance runtime (IExecutable e) name w).1 ≠ Return (VRaw v))
  ∧ Executable.__dir__ e w = inspect (py_dir (method e)) w
  ∧ Executable.__str__ e w = inspect (py_str (method e)) w.
Proof.
  intros Hfield Hbody Hrun.
  assert (getattr_instance runtime (IExecutable e) name w =
            (Raise (AttributeError "Executable" name), w)) as Hraise.
  { unfold getattr_instance, instance_dict.
    rewrite lookup_singleton_ne by congruence.
    unfold class_of. rewrite bool_decide_eq_false_2; [reflexivity|].
    intros Hin. apply elem_of_app in Hin as [Hin|Hin]; contradiction. }
  split; [exact Hraise|]. split; [|split; reflexivity].
  intros v s' _. rewrite Hraise. discriminate.
Qed.

Lemma executable_getattr_raises_witness :
  Mock.getattr Mock.Find "__name__" 0%nat = (Return Mock.Name, 0%nat)
  ∧ @getattr_instance Mock.library object_members
      (@IExecutable Mock.library Mock.executable) "__name__" Mock.w0 =
      (Raise (AttributeError "Executable" "__name__"), Mock.w0).
Proof.
  split; [reflexivity|].
  refine (proj1 (@executable_getattr_raises Mock.library object_members
                   Mock.executable "__name__" Mock.w0 _ _ _)).
  - discriminate.
  - intros Hin. apply list_elem_of_In in Hin. simpl in Hin.
    repeat (destruct Hin as [Hin|Hin]; [discriminate Hin|]). exact Hin.
  - intros Hin. apply list_elem_of_In in Hin. simpl in Hin.
    repeat (destruct Hin as [Hin|Hin]; [discriminate Hin|]). exact Hin.
Defined.

(** C10 as stated fails for [__class__]: the class does not define it, and
    access to it on an [Executable] succeeds, through the built-in base
    type. *)
Lemma executable_getattr_class_found :
  "__class__" ≠ "method"
  ∧ ("__class__" ∉ class_body CExecutable)
  ∧ @getattr_instance Mock.library object_members
      (@IExecutable Mock.library Mock.executable) "__class__" Mock.w0 =
      (Return (@VBound Mock.library (IExecutable Mock.executable) "__class__"), Mock.w0)
  ∧ (@getattr_instance Mock.library object_members
       (@IExecutable Mock.library Mock.executable) "__class__" Mock.w0 ≠
       (Raise (AttributeError "Executable" "__class__"), Mock.w0)).
Proof.
  split; [discriminate|]. split.
  - intros Hin. apply list_elem_of_In in Hin. simpl in Hin.
    repeat (destruct Hin as [Hin|Hin]; [discriminate Hin|]). exact Hin.
  - split; [reflexivity|discriminate].
Qed.

(** ** Freshness and statelessness of [Executable] *)

(** One turn of the loop. *)
Lemma retry_loop_cons `{Client} {A} (op : St → Res A * St)
    (i : Z) (rng : list Z) (w : World) :
  retry_loop (perform op) (i :: rng) w =
    match op (client w) with
    | (Return v, s) =>
        (Return v,
         {| client := s; trace := trace w ++ [EvInvoke]; next_id := next_id w |})
    | (Raise e, s) =>
        if isinstance e AutoReconnect then
          retry_loop (perform op) rng
            {| client := s; trace := trace w ++ cycle i; next_id := next_id w |}
        else
          (Raise e,
           {| client := s; trace := trace w ++ [EvInvoke]; next_id := next_id w |})
    end.
Proof.
  cbn [retry_loop]. unfold try_except at 1. unfold perform at 1.
  destruct (op (client w)) as [[v|e] s]; [reflexivity|].
  destruct (isinstance e AutoReconnect); [|reflexivity].
  unfold mbind, M_bind, logger_warning, time_sleep, emit.
  cbn [client trace next_id]. unfold cycle.
  rewrite <- !app_assoc. reflexivity.
Qed.

(** A retried call reads the client's state only: from two worlds with the
    same client state it has the same outcome, leaves the same client state
    and appends the same events; it allocates nothing. *)
Lemma retry_loop_frame `{Client} {A} (op : St → Res A * St) (rng : list Z) :
  ∀ w1 w2 : World, client w1 = client w2 →
    ∃ r s evs,
      retry_loop (perform op) rng w1 =
        (r, {| client := s; trace := trace w1 ++ evs; next_id := next_id w1 |})
      ∧ retry_loop (perform op) rng w2 =
        (r, {| client := s; trace := trace w2 ++ evs; next_id := next_id w2 |}).
Proof.
  induction rng as [|i rng IH]; intros w1 w2 Hc.
  - cbn [retry_loop]. unfold perform. rewrite <- Hc.
    destruct (op (client w1)) as [r s]. exists r, s, [EvInvoke]. split; reflexivity.
  - rewrite !retry_loop_cons, <- Hc.
    destruct (op (client w1)) as [[v|e] s].
    + exists (Return v), s, [EvInvoke]. split; reflexivity.
    + destruct (isinstance e AutoReconnect).
      * edestruct (IH
          {| client := s; trace := trace w1 ++ cycle i; next_id := next_id w1 |}
          {| client := s; trace := trace w2 ++ cycle i; next_id := next_id w2 |})
          as (r & s1 & evs & E1 & E2); [reflexivity|].
        exists r, s1, (cycle i ++ evs).
        rewrite E1, E2. cbn [client trace next_id].
        rewrite <- !app_assoc. split; reflexivity.
      * exists (Raise e), s, [EvInvoke]. split; reflexivity.
Qed.

(** A call whose first attempt fails with the transient error goes on with
    the warning for that turn of the loop and its delay. *)
Lemma retry_loop_first_cycle `{Client} {A} (op : St → Res A * St)
    (i : Z) (rng : list Z) (w : World) :
  transient (attempt op 0 (client w)) = true →
  ∃ rest, trace (retry_loop (perform op) (i :: rng) w).2 = trace w ++ cycle i ++ rest.
Proof.
  intros Hfail. unfold attempt in Hfail. cbn [after] in Hfail.
  rewrite retry_loop_cons.
  destruct (op (client w)) as [[v|e] s]; cbn in Hfail; [discriminate|].
  rewrite Hfail.
  destruct (retry_loop_frame op rng
    {| client := s; trace := trace w ++ cycle i; next_id := next_id w |}
    {| client := s; trace := []; next_id := next_id w |} eq_refl)
    as (r & s1 & evs & E1 & _).
  rewrite E1. cbn [snd trace]. exists evs. rewrite <- app_assoc. reflexivity.
Qed.

(** The only way attribute access on a proxy yields an [Executable] is by
    creating it. *)
Lemma proxy_getattr_executable_new `{Client} (runtime : list string)
    (p : ReconnectProxy) (key : string) (w w' : World) (e : Executable) :
  getattr_instance runtime (IProxy p) key w = (Return (VInst (IExecutable e)), w') →
  exec_id e = next_id w ∧ next_id w' = S (next_id w).
Proof.
  unfold getattr_instance, instance_dict.
  destruct (decide (key = "conn")) as [->|Hne].
  { rewrite lookup_singleton_eq. intros [=]. }
  rewrite lookup_singleton_ne by congruence.
  destruct (bool_decide (key ∈ class_body (class_of (IProxy p)) ++ runtime));
    [intros [=]|].
  unfold getattr_hook.
  destruct (py_getattr (conn p) key (client w)) as [[attr|err] s] eqn:Eattr.
  - rewrite (getattr_hook_run p key attr w s Eattr).
    destruct (py_callable attr && bool_decide (key ∈ EXECUTABLE_MONGO_METHODS)).
    + intros [= <- <-]. split; reflexivity.
    + intros [=].
  - unfold ReconnectProxy.__getattr__, mbind, M_bind, inspect.
    rewrite Eattr. intros [=].
Qed.

(** Attribute access never gives an identity back to the allocator, and a
    call of an [Executable] allocates nothing: a world reached later has an
    allocator at least as far on. *)
Lemma getattr_instance_next_id `{Client} (runtime : list string)
    (p : ReconnectProxy) (key : string) (w : World) :
  (next_id w ≤ next_id (getattr_instance runtime (IProxy p) key w).2)%nat.
Proof.
  unfold getattr_instance.
  destruct (instance_dict (IProxy p) !! key); [reflexivity|].
  destruct (bool_decide _); [reflexivity|].
  unfold getattr_hook.
  destruct (py_getattr (conn p) key (client w)) as [[attr|err] s] eqn:Eattr.
  - rewrite (getattr_hook_run p key attr w s Eattr).
    destruct (py_callable attr && bool_decide (key ∈ EXECUTABLE_MONGO_METHODS));
      cbn [snd next_id]; lia.
  - unfold ReconnectProxy.__getattr__, mbind, M_bind, inspect.
    rewrite Eattr. reflexivity.
Qed.

Lemma Executable_call_next_id `{Client} (e : Executable) (args : Args) (w : World) :
  next_id (Executable.__call__ e args w).2 = next_id w.
Proof.
  unfold Executable.__call__, safe_mongocall, _safe_mongocall.
  destruct (retry_loop_frame (py_invoke (method e) args) (range 4) w w eq_refl)
    as (r & s & evs & E & _).
  rewrite E. reflexivity.
Qed.

(** C9, amended: attribute access to a name in the operation set that
    ordinary lookup does not find on the proxy itself, and whose member on
    the wrapped object resolves and is invocable, returns an [Executable]
    around it; every [Executable] that attribute access on a proxy returns
    is a new instance: its identity
    is the one the allocator hands out at that access, so two accesses, of
    the same name or not, on the same proxy or not, never return the same
    instance.  A call of an [Executable] depends on the state of the client
    only, not on what was logged, slept or allocated before; and when its
    first attempt fails with the transient error, the warning names attempt
    0 and the delay is 2^0, whatever calls came earlier. *)
Theorem executable_fresh_and_stateless `{Client} (runtime : list string) :
  (∀ p key attr w s',
     key ≠ "conn" → key ∉ class_body CReconnectProxy ++ runtime →
     py_getattr (conn p) key (client w) = (Return attr, s') →
     py_callable attr = true → key ∈ EXECUTABLE_MONGO_METHODS →
     ∃ e w', getattr_instance runtime (IProxy p) key w =
               (Return (VInst (IExecutable e)), w')
             ∧ method e = attr)
  ∧ (∀ p key w e w',
     getattr_instance runtime (IProxy p) key w = (Return (VInst (IExecutable e)), w') →
     exec_id e = next_id w ∧ next_id w' = S (next_id w))
  ∧ (∀ p1 key1 w1 e1 w1' p2 key2 w2 e2 w2',
     getattr_instance runtime (IProxy p1) key1 w1 = (Return (VInst (IExecutable e1)), w1') →
     (next_id w1' ≤ next_id w2)%nat →
     getattr_instance runtime (IProxy p2) key2 w2 = (Return (VInst (IExecutable e2)), w2') →
     exec_id e1 ≠ exec_id e2)
  ∧ (∀ e args w1 w2, client w1 = client w2 →
     ∃ r s evs,
       Executable.__call__ e args w1 =
         (r, {| client := s; trace := trace w1 ++ evs; next_id := next_id w1 |})
       ∧ Executable.__call__ e args w2 =
         (r, {| client := s; trace := trace w2 ++ evs; next_id := next_id w2 |}))
  ∧ (∀ e args w,
     transient (attempt (py_invoke (method e) args) 0 (client w)) = true →
     ∃ rest,
       trace (Executable.__call__ e args w).2 =
       trace w ++ [EvInvoke; EvWarning "AutoReconnecting, try 0"; EvSleep 1] ++ rest).
Proof.
  split; [|split; [|split; [|split]]].
  - intros p key attr w s' Hconn Hbody Hattr Hcall Hin.
    rewrite (proxy_getattr_reaches_hook runtime p key w Hconn Hbody).
    rewrite (getattr_hook_run p key attr w s' Hattr).
    rewrite Hcall, bool_decide_eq_true_2 by exact Hin.
    eexists _, _. split; reflexivity.
  - intros p key w e w' Hget.
    exact (proxy_getattr_executable_new runtime p key w w' e Hget).
  - intros p1 key1 w1 e1 w1' p2 key2 w2 e2 w2' H1 Hlater H2.
    apply proxy_getattr_executable_new in H1 as [Hid1 Hnext1].
    apply proxy_getattr_executable_new in H2 as [Hid2 _].
    lia.
  - intros e args w1 w2 Hc.
    unfold Executable.__call__, safe_mongocall, _safe_mongocall.
    exact (retry_loop_frame (py_invoke (method e) args) (range 4) w1 w2 Hc).
  - intros e args w Hfail.
    unfold Executable.__call__, safe_mongocall, _safe_mongocall.
    exact (retry_loop_first_cycle (py_invoke (method e) args) 0 [1; 2; 3] w Hfail).
Qed.

Lemma executable_fresh_and_stateless_witness :
  @getattr_instance Mock.library object_members
    (@IProxy Mock.library Mock.proxy) "find" Mock.w0 =
    (Return (@VInst Mock.library
               (IExecutable (@Build_Executable Mock.library 0%nat Mock.Find))),
     @Build_World Mock.library 0%nat [] 1%nat)
  ∧ @getattr_instance Mock.library object_members
      (@IProxy Mock.library Mock.proxy) "find" (@Build_World Mock.library 0%nat [] 1%nat) =
      (Return (@VInst Mock.library
                 (IExecutable (@Build_Executable Mock.library 1%nat Mock.Find))),
       @Build_World Mock.library 0%nat [] 2%nat)
  ∧ @exec_id Mock.library (@Build_Executable Mock.library 0%nat Mock.Find) ≠
    @exec_id Mock.library (@Build_Executable Mock.library 1%nat Mock.Find).
Proof.
  split; [reflexivity|]. split; [reflexivity|].
  refine (proj1 (proj2 (proj2 (@executable_fresh_and_stateless Mock.library object_members)))
            Mock.proxy "find" Mock.w0 _ (@Build_World Mock.library 0%nat [] 1%nat)
            Mock.proxy "find" (@Build_World Mock.library 0%nat [] 1%nat) _
            (@Build_World Mock.library 0%nat [] 2%nat) _ _ _).
  - reflexivity.
  - cbn [next_id]. lia.
  - reflexivity.
Defined.

Lemma plain_find_classified : "find" ∈ (@EXECUTABLE_MONGO_METHODS Scenario.plain_library).
Proof.
  apply (@elem_of_get_methods Scenario.plain_library).
  exists Mock.Collection, Mock.Find.
  split; [apply list_elem_of_here|]. repeat split; reflexivity.
Qed.

(** C9 as stated fails for a classified name whose member is not invocable
    or is missing.  [find] is in the operation set; on a connection where
    [find] is a plain attribute, [proxy.find] is that attribute as it is and
    no [Executable] is created; on a wrapped object without a member [find],
    [proxy.find] raises the object's [AttributeError]. *)
Lemma proxy_getattr_classified_name_not_wrapped :
  ("find" ∈ @EXECUTABLE_MONGO_METHODS Scenario.plain_library)
  ∧ Mock.callable Mock.Host = false
  ∧ @getattr_instance Scenario.plain_library object_members
      (@IProxy Scenario.plain_library Scenario.plain_proxy) "find" Scenario.plain_w0 =
      (Return (@VRaw Scenario.plain_library Mock.Host), Scenario.plain_w0)
  ∧ (@getattr_instance Scenario.plain_library object_members
       (@IProxy Scenario.plain_library Scenario.plain_proxy) "find" Scenario.plain_w0 ≠
       (Return (@VInst Scenario.plain_library
                  (IExecutable (@Build_Executable Scenario.plain_library 0%nat Mock.Host))),
        @Build_World Scenario.plain_library 0%nat [] 1%nat))
  ∧ ("find" ∈ @EXECUTABLE_MONGO_METHODS Mock.library)
  ∧ @getattr_instance Mock.library object_members
      (@IProxy Mock.library Scenario.db_proxy) "find" Mock.w0 =
      (Raise (AttributeError "object" "find"), Mock.w0).
Proof.
  split; [exact plain_find_classified|]. split; [reflexivity|].
  split; [reflexivity|]. split; [discriminate|].
  split; [exact mock_find_classified|]. reflexivity.
Qed.

(** * Further properties of the module *)

(** ** The retry loop on an arbitrary operation *)

(** Among the first [n + 1] consecutive attempts there is a first one that
    ends a loop of [n] turns. *)
Lemma first_ending_attempt {T A : Type} (op : T → Res A * T) (s : T) (n : nat) :
  ∃ j, (j ≤ n)%nat
       ∧ (∀ i, (i < j)%nat → transient (attempt op i s) = true)
       ∧ (j = n ∨ transient (attempt op j s) = false).
Proof.
  induction n as [|n (j & Hle & Hfail & Hend)].
  - exists 0%nat. split; [lia|]. split; [intros i Hi; lia|]. left. reflexivity.
  - destruct Hend as [->|Hend].
    + destruct (transient (attempt op n s)) eqn:En.
      * exists (S n). split; [lia|]. split; [|left; reflexivity].
        intros i Hi. destruct (decide (i = n)) as [->|Hne]; [exact En|].
        apply Hfail. lia.
      * exists n. split; [lia|]. split; [exact Hfail|]. right. exact En.
    + exists j. split; [lia|]. split; [exact Hfail|]. right. exact Hend.
Qed.

Lemma sum_snoc (l : list Z) (x : Z) :
  foldr Z.add 0 (l ++ [x]) = foldr Z.add 0 l + x.
Proof. induction l as [|y l IH]; simpl; [lia|]. rewrite IH. lia. Qed.

Lemma total_delay_retry_trace (k : nat) :
  total_delay (retry_trace k) = 2 ^ Z.of_nat k - 1.
Proof.
  unfold total_delay.
  destruct (retry_trace_observed k) as (_ & -> & _).
  induction k as [|k IH]; [reflexivity|].
  rewrite range_S, fmap_app. cbn [fmap list_fmap].
  rewrite sum_snoc, IH, Nat2Z.inj_succ, Z.pow_succ_r by lia. lia.
Qed.

(** X1: whatever the operation does, a call through the wrapper ends at the
    first attempt, among the first five, that does not fail with the
    transient error, or at the fifth: the outcome of the call is the outcome
    of that attempt, the operation has run once per attempt, and the events
    are those of the failed attempts before it and of that attempt. *)
Theorem safe_mongocall_outcome `{Client} {A B} (op : B → St → Res A * St)
    (args : B) (w : World) :
  ∃ j, (j ≤ 4)%nat
       ∧ (∀ i, (i < j)%nat → transient (attempt (op args) i (client w)) = true)
       ∧ (j = 4%nat ∨ transient (attempt (op args) j (client w)) = false)
       ∧ safe_mongocall (λ a, perform (op a)) args w =
           (attempt (op args) j (client w),
            {| client := after (op args) (S j) (client w);
               trace := trace w ++ retry_trace j;
               next_id := next_id w |}).
Proof.
  destruct (first_ending_attempt (op args) (client w) 4) as (j & Hle & Hfail & Hend).
  exists j. split; [exact Hle|]. split; [exact Hfail|]. split; [exact Hend|].
  apply safe_mongocall_run; assumption.
Qed.

(** X2: whatever the operation does, a call through the wrapper runs it at
    least once and at most five times, logs one warning and sleeps once per
    attempt but the last, sleeps 2^n - 1 in all after n failed attempts,
    hence never more than 15, and keeps the events already in the trace. *)
Theorem safe_mongocall_bounded `{Client} {A B} (op : B → St → Res A * St)
    (args : B) (w : World) :
  ∃ evs,
    trace (safe_mongocall (λ a, perform (op a)) args w).2 = trace w ++ evs
    ∧ (1 ≤ invocations evs ≤ 5)%nat
    ∧ length (warnings evs) = (invocations evs - 1)%nat
    ∧ length (delays evs) = (invocations evs - 1)%nat
    ∧ total_delay evs = 2 ^ Z.of_nat (invocations evs - 1) - 1
    ∧ 0 ≤ total_delay evs ≤ 15.
Proof.
  destruct (first_ending_attempt (op args) (client w) 4) as (j & Hle & Hfail & Hend).
  rewrite (safe_mongocall_run op args j w Hle Hfail Hend).
  exists (retry_trace j). split; [reflexivity|].
  destruct (retry_trace_observed j) as (Hw & Hd & Hi).
  rewrite Hw, Hd, Hi, !length_fmap, range_length, total_delay_retry_trace.
  replace (S j - 1)%nat with j by lia.
  split; [lia|]. split; [reflexivity|]. split; [reflexivity|]. split; [reflexivity|].
  assert (j = 0 ∨ j = 1 ∨ j = 2 ∨ j = 3 ∨ j = 4)%nat as Hj by lia.
  destruct Hj as [->|[->|[->|[->| ->]]]]; simpl; lia.
Qed.

(** X3: an operation that fails with the transient error four times and then
    returns [v] still succeeds through the wrapper: the fifth attempt, made
    after delays of 1, 2, 4 and 8, returns [v]. *)
Theorem safe_mongocall_fifth_attempt `{Client} {A B} (op : B → St → Res A * St)
    (args : B) (v : A) (w : World) :
  (∀ i, (i < 4)%nat → transient (attempt (op args) i (client w)) = true) →
  attempt (op args) 4 (client w) = Return v →
  safe_mongocall (λ a, perform (op a)) args w =
    (Return v,
     {| client := after (op args) 5 (client w);
        trace := trace w ++
          [EvInvoke; EvWarning "AutoReconnecting, try 0"; EvSleep 1;
           EvInvoke; EvWarning "AutoReconnecting, try 1"; EvSleep 2;
           EvInvoke; EvWarning "AutoReconnecting, try 2"; EvSleep 4;
           EvInvoke; EvWarning "AutoReconnecting, try 3"; EvSleep 8;
           EvInvoke];
        next_id := next_id w |}).
Proof.
  intros Hfail Hok.
  rewrite (safe_mongocall_run op args 4 w).
  - rewrite Hok. reflexivity.
  - lia.
  - exact Hfail.
  - left. reflexivity.
Qed.

Lemma safe_mongocall_fifth_attempt_witness :
  @safe_mongocall Mock.library _ _
    (λ a, @perform Mock.library _ (Scenario.flaky 4 a)) tt Mock.w0 =
    (Return Mock.Result,
     @Build_World Mock.library 5%nat
       [EvInvoke; EvWarning "AutoReconnecting, try 0"; EvSleep 1;
        EvInvoke; EvWarning "AutoReconnecting, try 1"; EvSleep 2;
        EvInvoke; EvWarning "AutoReconnecting, try 2"; EvSleep 4;
        EvInvoke; EvWarning "AutoReconnecting, try 3"; EvSleep 8;
        EvInvoke] 0%nat).
Proof.
  refine (@safe_mongocall_fifth_attempt Mock.library _ _
            (λ a, Scenario.flaky 4 a) tt Mock.Result Mock.w0 _ _).
  - intros [|[|[|[|i]]]] Hi; try reflexivity. lia.
  - reflexivity.
Defined.

(** X4: the caller sees a transient error only when the retries are used
    up: if the call through the wrapper ends with one, all five attempts
    failed with the transient error and the delays 1, 2, 4 and 8 were
    taken. *)
Theorem safe_mongocall_transient_outcome `{Client} {A B} (op : B → St → Res A * St)
    (args : B) (w : World) :
  transient (safe_mongocall (λ a, perform (op a)) args w).1 = true →
  (∀ i, (i ≤ 4)%nat → transient (attempt (op args) i (client w)) = true)
  ∧ trace (safe_mongocall (λ a, perform (op a)) args w).2 = trace w ++ retry_trace 4
  ∧ delays (retry_trace 4) = [1; 2; 4; 8]
  ∧ invocations (retry_trace 4) = 5%nat.
Proof.
  destruct (first_ending_attempt (op args) (client w) 4) as (j & Hle & Hfail & Hend).
  rewrite (safe_mongocall_run op args j w Hle Hfail Hend). cbn [fst snd trace].
  intros Hout.
  destruct Hend as [->|Hend]; [|congruence].
  split; [|repeat split].
  intros i Hi. destruct (decide (i = 4%nat)) as [->|Hne]; [exact Hout|].
  apply Hfail. lia.
Qed.

Lemma safe_mongocall_transient_outcome_witness :
  trace (@safe_mongocall Mock.library _ _
           (λ a, @perform Mock.library _ (Mock.invoke Mock.Insert a)) tt Mock.w0).2 =
  retry_trace 4.
Proof.
  refine (proj1 (proj2 (@safe_mongocall_transient_outcome Mock.library _ _
                          (λ a, Mock.invoke Mock.Insert a) tt Mock.w0 _))).
  reflexivity.
Defined.

(** ** The operation set under changes of the root types *)

(** X5: without root types the operation set is empty, and the operation set
    of two lists of root types put together is the union of their operation
    sets. *)
Theorem get_methods_union `{Client} (objs1 objs2 : list (gmap string Obj)) :
  get_methods [] = ∅
  ∧ get_methods (objs1 ++ objs2) = get_methods objs1 ∪ get_methods objs2.
Proof.
  split; [reflexivity|].
  apply set_eq. intros name.
  rewrite elem_of_union, !elem_of_get_methods. split.
  - intros (obj & v & Hobj & Hrest).
    apply elem_of_app in Hobj as [Hobj|Hobj]; [left|right]; exists obj, v; tauto.
  - intros [(obj & v & Hobj & Hrest)|(obj & v & Hobj & Hrest)];
      exists obj, v; (split; [apply elem_of_app; tauto|exact Hrest]).
Qed.

(** X6: the operation set depends on which root types are given, not on
    their order or on repetitions, and it grows with them: root types that
    are all among those of a second list give a subset of its operation
    set. *)
Theorem get_methods_monotone `{Client} (objs1 objs2 : list (gmap string Obj)) :
  ((∀ obj, obj ∈ objs1 → obj ∈ objs2) → get_methods objs1 ⊆ get_methods objs2)
  ∧ ((∀ obj, obj ∈ objs1 ↔ obj ∈ objs2) → get_methods objs1 = get_methods objs2).
Proof.
  assert (∀ l1 l2 : list (gmap string Obj),
            (∀ obj, obj ∈ l1 → obj ∈ l2) → get_methods l1 ⊆ get_methods l2) as Hsub.
  { intros l1 l2 Hincl name. rewrite !elem_of_get_methods.
    intros (obj & v & Hobj & Hrest). exists obj, v. split; [|exact Hrest].
    apply Hincl. exact Hobj. }
  split; [apply Hsub|].
  intros Hsame. apply set_eq. intros name. split.
  - apply Hsub. intros obj. apply Hsame.
  - apply Hsub. intros obj. apply Hsame.
Qed.

Lemma get_methods_monotone_witness :
  @get_methods Mock.library [Mock.Collection; Mock.Connection] =
  @get_methods Mock.library [Mock.Connection; Mock.Collection; Mock.Connection].
Proof.
  refine (proj2 (@get_methods_monotone Mock.library
                   [Mock.Collection; Mock.Connection]
                   [Mock.Connection; Mock.Collection; Mock.Connection]) _).
  intros obj. rewrite !elem_of_cons, !elem_of_nil. tauto.
Defined.

(** ** Which members the proxy wraps *)

(** X7: a member whose name begins with ['_'] is never wrapped, whatever the
    root types contain and whether or not it is invocable: [__getattr__]
    returns it as the wrapped object gives it and creates no [Executable]. *)
Theorem getattr_private_not_wrapped `{Client} (p : ReconnectProxy) (key : string)
    (attr : Obj) (w : World) (s' : St) :
  startswith key "_" = true →
  py_getattr (conn p) key (client w) = (Return attr, s') →
  ReconnectProxy.__getattr__ p key w =
    (Return (VRaw attr), {| client := s'; trace := trace w; next_id := next_id w |}).
Proof.
  intros Hpre Hattr.
  rewrite (getattr_hook_run p key attr w s' Hattr).
  rewrite (bool_decide_eq_false_2 (key ∈ EXECUTABLE_MONGO_METHODS)).
  - rewrite andb_false_r. reflexivity.
  - intros Hin. apply elem_of_get_methods in Hin as (obj & v & _ & _ & Hpub & _).
    congruence.
Qed.

Lemma getattr_private_not_wrapped_witness :
  Mock.callable Mock.Internal = true
  ∧ @ReconnectProxy.__getattr__ Mock.library Mock.proxy "_internal" Mock.w0 =
      (Return (@VRaw Mock.library Mock.Internal), Mock.w0).
Proof.
  split; [reflexivity|].
  refine (@getattr_private_not_wrapped Mock.library Mock.proxy "_internal"
            Mock.Internal Mock.w0 0%nat _ _); reflexivity.
Defined.

(** X8: [__getattr__] returns an [Executable] exactly when the member it
    read from the wrapped object is invocable and one of the three root
    types has an invocable member of the same name that does not begin with
    ['_']: the name alone decides, not the type of the wrapped object. *)
Theorem getattr_wraps_iff `{Client} (p : ReconnectProxy) (key : string)
    (attr : Obj) (w : World) (s' : St) :
  py_getattr (conn p) key (client w) = (Return attr, s') →
  (∃ e w', ReconnectProxy.__getattr__ p key w = (Return (VInst (IExecutable e)), w'))
  ↔ (py_callable attr = true
     ∧ ∃ root v, root ∈ [pymongo_collection_Collection; pymongo_Connection; pymongo]
                 ∧ root !! key = Some v
                 ∧ startswith key "_" = false ∧ py_callable v = true).
Proof.
  intros Hattr.
  rewrite (getattr_hook_run p key attr w s' Hattr).
  unfold EXECUTABLE_MONGO_METHODS. rewrite <- elem_of_get_methods.
  destruct (py_callable attr); simpl.
  - case_bool_decide as Hin.
    + split; [intros _; split; [reflexivity|exact Hin]|].
      intros _. eexists _, _. reflexivity.
    + split; [intros (e & w' & [=])|]. intros [_ Hin']. contradiction.
  - split; [intros (e & w' & [=])|]. intros [[=] _].
Qed.

Lemma getattr_wraps_iff_witness :
  ∃ e w', @ReconnectProxy.__getattr__ Mock.library Mock.proxy "insert" Mock.w0 =
            (Return (@VInst Mock.library (IExecutable e)), w').
Proof.
  refine (proj2 (@getattr_wraps_iff Mock.library Mock.proxy "insert"
                   Mock.Insert Mock.w0 0%nat _) _).
  - reflexivity.
  - split; [reflexivity|].
    exists Mock.Connection, Mock.Insert.
    split; [apply list_elem_of_further, list_elem_of_here|].
    repeat split; reflexivity.
Defined.

(** X9: when the wrapped object has no member of the name, or reading it
    fails in any other way, attribute access on the proxy raises that same
    error; nothing is created, logged or retried. *)
Theorem getattr_error_propagates `{Client} (runtime : list string)
    (p : ReconnectProxy) (key : string) (e : PyExc) (w : World) (s' : St) :
  key ≠ "conn" →
  key ∉ class_body CReconnectProxy ++ runtime →
  py_getattr (conn p) key (client w) = (Raise e, s') →
  getattr_instance runtime (IProxy p) key w =
    (Raise e, {| client := s'; trace := trace w; next_id := next_id w |}).
Proof.
  intros Hconn Hbody Hattr.
  rewrite (proxy_getattr_reaches_hook runtime p key w Hconn Hbody).
  unfold ReconnectProxy.__getattr__, mbind, M_bind, inspect.
  rewrite Hattr. reflexivity.
Qed.

Lemma getattr_error_propagates_witness :
  @getattr_instance Mock.library object_members
    (@IProxy Mock.library Mock.proxy) "nosuch" Mock.w0 =
    (Raise (AttributeError "Connection" "nosuch"), Mock.w0).
Proof.
  refine (@getattr_error_propagates Mock.library object_members Mock.proxy
            "nosuch" (AttributeError "Connection" "nosuch") Mock.w0 0%nat _ _ _).
  - discriminate.
  - intros Hin. apply list_elem_of_In in Hin. simpl in Hin.
    repeat (destruct Hin as [Hin|Hin]; [discriminate Hin|]). exact Hin.
  - reflexivity.
Defined.

(** ** Indexing the proxy, further *)

(** X10: when indexing the wrapped object fails, for a missing key say,
    indexing the proxy raises that same error: the unbound name of line 84
    is not reached. *)
Theorem getitem_error_propagates `{Client} (p : ReconnectProxy) (key : Key)
    (e : PyExc) (w : World) (s' : St) :
  py_getitem (conn p) key (client w) = (Raise e, s') →
  ReconnectProxy.__getitem__ p key w =
    (Raise e, {| client := s'; trace := trace w; next_id := next_id w |}).
Proof.
  intros Hitem.
  unfold ReconnectProxy.__getitem__, mbind, M_bind, inspect.
  rewrite Hitem. reflexivity.
Qed.

Lemma getitem_error_propagates_witness :
  @ReconnectProxy.__getitem__ Mock.library Mock.proxy "nokey" Mock.w0 =
    (Raise (Mock.KeyError_exc "nokey"), Mock.w0).
Proof.
  refine (@getitem_error_propagates Mock.library Mock.proxy "nokey"
            (Mock.KeyError_exc "nokey") Mock.w0 0%nat _).
  reflexivity.
Defined.

(** X11: indexing the proxy reads the wrapped object once and does nothing
    else: it invokes nothing, logs nothing, takes no delay and creates no
    object; and what it returns is never an instance of [Executable] or of
    [ReconnectProxy]. *)
Theorem getitem_effects `{Client} (p : ReconnectProxy) (key : Key) (w : World) :
  client (ReconnectProxy.__getitem__ p key w).2 = (py_getitem (conn p) key (client w)).2
  ∧ trace (ReconnectProxy.__getitem__ p key w).2 = trace w
  ∧ next_id (ReconnectProxy.__getitem__ p key w).2 = next_id w
  ∧ ∀ i, (ReconnectProxy.__getitem__ p key w).1 ≠ Return (VInst i).
Proof.
  destruct (py_getitem (conn p) key (client w)) as [[item|e] s'] eqn:Hitem.
  - destruct (py_callable item) eqn:Hcall.
    + rewrite (getitem_invocable p key item w s' Hitem Hcall).
      repeat split. intros i [=].
    + rewrite (getitem_plain p key item w s' Hitem Hcall).
      repeat split. intros i [=].
  - unfold ReconnectProxy.__getitem__, mbind, M_bind, inspect.
    rewrite Hitem. repeat split. intros i [=].
Qed.

(** ** Access and call together *)

(** The retry loop of an [Executable] around its method, run to the attempt
    that ends it. *)
Lemma Executable_call_run `{Client} (e : Executable) (args : Args) (j : nat) (w : World) :
  (j ≤ 4)%nat →
  (∀ i, (i < j)%nat →
     transient (attempt (py_invoke (method e) args) i (client w)) = true) →
  j = 4%nat ∨ transient (attempt (py_invoke (method e) args) j (client w)) = false →
  Executable.__call__ e args w =
    (attempt (py_invoke (method e) args) j (client w),
     {| client := after (py_invoke (method e) args) (S j) (client w);
        trace := trace w ++ retry_trace j;
        next_id := next_id w |}).
Proof.
  intros Hle Hfail Hend.
  rewrite Executable_call_is_retry.
  exact (safe_mongocall_run (λ a, py_invoke (method e) a) args j w Hle Hfail Hend).
Qed.

(** X12: reading an operation from the proxy and calling what was read, as
    in [proxy.find(args)]: when the member is invocable, its name is in the
    operation set, and invoking it fails [k ≤ 4] times with the transient
    error and then returns [v], the access yields an [Executable] and its
    call returns [v]; the member was invoked [k + 1] times, from the state
    the access left, and one identity was allocated. *)
Theorem proxy_operation_call `{Client} (runtime : list string) (p : ReconnectProxy)
    (key : string) (attr : Obj) (args : Args) (k : nat) (v : Obj)
    (w : World) (s' : St) :
  key ≠ "conn" →
  key ∉ class_body CReconnectProxy ++ runtime →
  py_getattr (conn p) key (client w) = (Return attr, s') →
  py_callable attr = true →
  key ∈ EXECUTABLE_MONGO_METHODS →
  (k ≤ 4)%nat →
  (∀ i, (i < k)%nat → transient (attempt (py_invoke attr args) i s') = true) →
  attempt (py_invoke attr args) k s' = Return v →
  ∃ e w',
    getattr_instance runtime (IProxy p) key w = (Return (VInst (IExecutable e)), w')
    ∧ Executable.__call__ e args w' =
        (Return v,
         {| client := after (py_invoke attr args) (S k) s';
            trace := trace w ++ retry_trace k;
            next_id := S (next_id w) |}).
Proof.
  intros Hconn Hbody Hattr Hcall Hin Hk Hfail Hok.
  rewrite (proxy_getattr_reaches_hook runtime p key w Hconn Hbody).
  rewrite (getattr_hook_run p key attr w s' Hattr).
  rewrite Hcall, bool_decide_eq_true_2 by exact Hin.
  eexists _, _. split; [reflexivity|].
  rewrite (Executable_call_run _ args k).
  - cbn [method client trace next_id]. rewrite Hok. reflexivity.
  - exact Hk.
  - exact Hfail.
  - right. cbn [method client]. rewrite Hok. reflexivity.
Qed.

Lemma proxy_operation_call_witness :
  ∃ e w',
    @getattr_instance Mock.library object_members
      (@IProxy Mock.library Mock.proxy) "find" Mock.w0 =
      (Return (@VInst Mock.library (IExecutable e)), w')
    ∧ @Executable.__call__ Mock.library e tt w' =
        (Return Mock.Result,
         @Build_World Mock.library 3%nat
           [EvInvoke; EvWarning "AutoReconnecting, try 0"; EvSleep 1;
            EvInvoke; EvWarning "AutoReconnecting, try 1"; EvSleep 2;
            EvInvoke] 1%nat).
Proof.
  refine (@proxy_operation_call Mock.library object_members Mock.proxy "find"
            Mock.Find tt 2%nat Mock.Result Mock.w0 0%nat _ _ _ _ _ _ _ _).
  - discriminate.
  - intros Hin. apply list_elem_of_In in Hin. simpl in Hin.
    repeat (destruct Hin as [Hin|Hin]; [discriminate Hin|]). exact Hin.
  - reflexivity.
  - reflexivity.
  - exact mock_find_classified.
  - lia.
  - intros [|[|i]] Hi; [reflexivity|reflexivity|lia].
  - reflexivity.
Defined.

(** X14: two calls of an [Executable] in a row: the second starts from the
    state the first left and counts its attempts from 0 again.  When the
    first returns after [k1 ≤ 4] transient failures and the second after
    [k2 ≤ 4] more, the events are those of [k1] retries followed by those of
    [k2] retries, and the result is that of the second call. *)
Theorem executable_calls_in_a_row `{Client} (e : Executable) (args : Args)
    (k1 k2 : nat) (v1 v2 : Obj) (w : World) :
  (k1 ≤ 4)%nat →
  (∀ i, (i < k1)%nat →
     transient (attempt (py_invoke (method e) args) i (client w)) = true) →
  attempt (py_invoke (method e) args) k1 (client w) = Return v1 →
  (k2 ≤ 4)%nat →
  (∀ i, (i < k2)%nat →
     transient (attempt (py_invoke (method e) args) i
                  (after (py_invoke (method e) args) (S k1) (client w))) = true) →
  attempt (py_invoke (method e) args) k2
    (after (py_invoke (method e) args) (S k1) (client w)) = Return v2 →
  (Executable.__call__ e args ≫= λ _, Executable.__call__ e args) w =
    (Return v2,
     {| client := after (py_invoke (method e) args) (S k2)
                    (after (py_invoke (method e) args) (S k1) (client w));
        trace := trace w ++ retry_trace k1 ++ retry_trace k2;
        next_id := next_id w |}).
Proof.
  intros Hk1 Hfail1 Hok1 Hk2 Hfail2 Hok2.
  unfold mbind, M_bind.
  rewrite (Executable_call_run e args k1 w Hk1 Hfail1)
    by (right; rewrite Hok1; reflexivity).
  rewrite Hok1.
  rewrite (Executable_call_run e args k2).
  - cbn [client trace next_id]. rewrite Hok2, <- app_assoc. reflexivity.
  - exact Hk2.
  - exact Hfail2.
  - right. cbn [client]. rewrite Hok2. reflexivity.
Qed.

Lemma executable_calls_in_a_row_witness :
  (@Executable.__call__ Mock.library Mock.executable tt ≫=
     λ _, @Executable.__call__ Mock.library Mock.executable tt) Mock.w0 =
    (Return Mock.Result,
     @Build_World Mock.library 4%nat
       [EvInvoke; EvWarning "AutoReconnecting, try 0"; EvSleep 1;
        EvInvoke; EvWarning "AutoReconnecting, try 1"; EvSleep 2;
        EvInvoke; EvInvoke] 0%nat).
Proof.
  refine (@executable_calls_in_a_row Mock.library Mock.executable tt
            2%nat 0%nat Mock.Result Mock.Result Mock.w0 _ _ _ _ _ _).
  - lia.
  - intros [|[|i]] Hi; [reflexivity|reflexivity|lia].
  - reflexivity.
  - lia.
  - intros i Hi. lia.
  - reflexivity.
Defined.
